(** * Week7/DecisionTrees.ipynb: the ID3 node-selection cells

    A shallow embedding of the three functions of the decision-tree
    notebook, [Entropy], [Gain] and [find_node], together with the two
    library operations [find_node] relies on: list slicing/indexing and
    [numpy.argmax].

    The notebook threads two effects through [find_node]: Python
    exceptions, and the calls it makes to the global function [Gain].
    Both are explicit here: a computation is a function from the log of
    [Gain] calls made so far to an outcome and the extended log.

    Two more cells are embedded: the one of the same file that draws the
    synthetic regression data and cuts it into training, test and
    validation parts, on binary64 floats, and the [loss] and
    [gradient_descent] functions of the regression notebook. *)

From Stdlib Require Import List String Bool Arith ZArith Lia QArith.
From Stdlib Require Floats Uint63.
Import ListNotations.
Local Open Scope string_scope.
Local Open Scope list_scope.
Local Open Scope nat_scope.

(** ** Python values, exceptions and the data frame *)

(** The values [Entropy] and [Gain] can produce: [None] (what a bare
    [return] yields) or a number.  Numbers are rationals: [find_node] only
    ever orders them, and the order of the finite floats is the order of the
    rationals they denote.  [nan] and the infinities have no counterpart
    here; no cell of the notebook computes a float. *)
Inductive pyval : Type :=
| PyNone
| PyFloat (x : Q).

(** A call either returns a value or raises an exception, identified by the
    name of its class. *)
Inductive outcome (A : Type) : Type :=
| Returns (a : A)
| Raises (cls : string).
Arguments Returns {A} a.
Arguments Raises {A} cls.

(** A pandas [DataFrame] of categorical values: the ordered column labels
    (what [list(S)] iterates over) and the rows, each a list of cells in
    column order. *)
Record DataFrame : Type := mkDataFrame {
  columns : list string;
  rows : list (list string)
}.

(** ** The computation monad: exceptions and the log of [Gain] calls *)

Definition call : Type := (DataFrame * string)%type.
Definition log : Type := list call.
Definition py (A : Type) : Type := log -> outcome A * log.

Definition ret {A} (a : A) : py A := fun t => (Returns a, t).

Definition bind {A B} (m : py A) (k : A -> py B) : py B :=
  fun t =>
    match m t with
    | (Returns a, t') => k a t'
    | (Raises cls, t') => (Raises cls, t')
    end.

(** A pure library call, which may raise but calls no notebook function. *)
Definition lift {A} (o : outcome A) : py A := fun t => (o, t).

Declare Scope py_scope.
Delimit Scope py_scope with py.
Notation "x <- m ;; k" := (bind m (fun x => k))
  (at level 100, m at next level, right associativity) : py_scope.
Local Open Scope py_scope.

(** ** The cells marked "Complete me" *)

(** [def Entropy(S): return], after the docstring. *)
Definition Entropy (S : DataFrame) : outcome pyval := Returns PyNone.

(** [def Gain(S, feature): return], after the docstring. *)
Definition Gain (S : DataFrame) (feature : string) : outcome pyval :=
  Returns PyNone.

(** ** Library operations used by [find_node] *)

(** [a > b] on Python objects: defined between numbers, a [TypeError] as soon
    as [None] is involved.  On two numbers this is also the test of numpy's
    float scan, [!(a <= b)]. *)
Definition py_gt (a b : pyval) : outcome bool :=
  match a, b with
  | PyFloat x, PyFloat y => Returns (negb (Qle_bool x y))
  | _, _ => Raises "TypeError"
  end.

(** The scan of [numpy.argmax]: [mp] is the best value so far, [max_ind] its
    index, [i] the index of the head of [rest].  The best value is replaced
    only by a strictly greater one. *)
Fixpoint argmax_scan (mp : pyval) (max_ind i : nat) (rest : list pyval)
  : outcome nat :=
  match rest with
  | [] => Returns max_ind
  | val :: rest' =>
      match py_gt val mp with
      | Raises cls => Raises cls
      | Returns true => argmax_scan val i (S i) rest'
      | Returns false => argmax_scan mp max_ind (S i) rest'
      end
  end.

(** [np.argmax(np.array(gains))]: a [ValueError] on an empty sequence,
    otherwise the scan starting from the first element. *)
Definition np_argmax (a : list pyval) : outcome nat :=
  match a with
  | [] => Raises "ValueError"
  | x :: rest => argmax_scan x 0 1 rest
  end.

(** [cols[i]] for a non-negative index. *)
Definition getitem (cols : list string) (i : nat) : outcome string :=
  match nth_error cols i with
  | Some c => Returns c
  | None => Raises "IndexError"
  end.

(** ** [find_node] *)

Section find_node.

(** [find_node] looks the global name [Gain] up when it runs, and the cell
    defining [Gain] is one the notebook asks to be completed: the function
    bound to that name is a parameter. *)
Variable GainFn : DataFrame -> string -> outcome pyval.

(** [Gain(S, c)], recorded in the log. *)
Definition call_Gain (S : DataFrame) (c : string) : py pyval :=
  fun t => (GainFn S c, t ++ [(S, c)]).

(** [for c in cs: gains.append(Gain(S, c))] *)
Fixpoint gains_loop (S : DataFrame) (cs : list string) (gains : list pyval)
  : py (list pyval) :=
  match cs with
  | [] => ret gains
  | c :: cs' => g <- call_Gain S c ;; gains_loop S cs' (gains ++ [g])
  end.

(** [cols = list(S); gains = []; for c in cols[:-1]: ...;
    gains = np.array(gains); return cols[np.argmax(gains)]] *)
Definition find_node (S : DataFrame) : py string :=
  let cols := columns S in
  gains <- gains_loop S (removelast cols) [] ;;
  i <- lift (np_argmax gains) ;;
  lift (getitem cols i).

End find_node.

(** ** Concrete data *)

(** [S[S[feature] == value]], the row selection the notebook recommends for
    partitioning: the rows whose cell in column [feature] is [value], under
    the same columns; a [KeyError] when no column has that name and a
    [ValueError] when more than one has. *)
Fixpoint column_index (cols : list string) (feature : string) : option nat :=
  match cols with
  | [] => None
  | c :: cols' =>
      if String.eqb c feature then Some 0
      else option_map Datatypes.S (column_index cols' feature)
  end.

Definition select_rows (S : DataFrame) (feature value : string)
  : outcome DataFrame :=
  match column_index (columns S) feature with
  | None => Raises "KeyError"
  | Some i =>
      if 1 <? count_occ string_dec (columns S) feature
      then Raises "ValueError"
      else
        Returns (mkDataFrame (columns S)
                   (filter (fun r => match nth_error r i with
                                     | Some cell => String.eqb cell value
                                     | None => false
                                     end) (rows S)))
  end.

(** The worked example: one feature [A], label [L], four records. *)
Definition D4 : DataFrame :=
  mkDataFrame ["A"; "L"] [["x"; "0"]; ["x"; "1"]; ["y"; "1"]; ["y"; "1"]].

(** Its two parts, [D4[D4["A"] == "x"]] and [D4[D4["A"] == "y"]]. *)
Definition D4_x : DataFrame := mkDataFrame ["A"; "L"] [["x"; "0"]; ["x"; "1"]].
Definition D4_y : DataFrame := mkDataFrame ["A"; "L"] [["y"; "1"]; ["y"; "1"]].

(** The header of [car.data] with its first two records. *)
Definition car_head : DataFrame :=
  mkDataFrame
    ["buying"; "maint"; "doors"; "persons"; "lug_boot"; "safety";
     "acceptability"]
    [["vhigh"; "vhigh"; "2"; "2"; "small"; "low"; "unacc"];
     ["vhigh"; "vhigh"; "2"; "2"; "small"; "med"; "unacc"]].

(** A synthetic schema of four features in which the second and the third
    tie for the largest gain, with one record. *)
Definition tie_df : DataFrame :=
  mkDataFrame ["f1"; "f2"; "f3"; "f4"; "label"] [["a"; "b"; "c"; "d"; "yes"]].

(** The same schema with no record at all. *)
Definition no_rows_df : DataFrame :=
  mkDataFrame ["f1"; "f2"; "f3"; "f4"; "label"] [].

(** One feature column and no record. *)
Definition no_rows_AL : DataFrame := mkDataFrame ["A"; "L"] [].

(** A label column and nothing else. *)
Definition label_only_df : DataFrame := mkDataFrame ["L"] [["0"]; ["1"]].

(** A constant label, a constant feature, and a two-valued uniform label. *)
Definition pure_df : DataFrame :=
  mkDataFrame ["A"; "L"] [["x"; "1"]; ["y"; "1"]; ["y"; "1"]].
Definition constant_feature_df : DataFrame :=
  mkDataFrame ["A"; "L"] [["x"; "0"]; ["x"; "1"]; ["x"; "1"]].
Definition uniform_df : DataFrame :=
  mkDataFrame ["A"; "L"] [["x"; "0"]; ["y"; "1"]].

(** A completed [Gain] as far as [find_node] can tell: a function that
    answers with a number for the columns of a table and raises [KeyError]
    (as [S[feature]] does) for any other name. *)
Fixpoint table_lookup (tbl : list (string * Q)) (c : string) : option Q :=
  match tbl with
  | [] => None
  | (k, q) :: tbl' => if String.eqb k c then Some q else table_lookup tbl' c
  end.

Definition table_Gain (tbl : list (string * Q)) (S : DataFrame) (c : string)
  : outcome pyval :=
  match table_lookup tbl c with
  | Some q => Returns (PyFloat q)
  | None => Raises "KeyError"
  end.

Definition tie_table : list (string * Q) :=
  [("f1", 1 # 10); ("f2", 3 # 10); ("f3", 6 # 20); ("f4", 1 # 5)]%Q.

Definition tie_gain (c : string) : Q :=
  match table_lookup tie_table c with
  | Some q => q
  | None => 0%Q
  end.

(** ** Notions the statements use *)

(** The feature columns of a data frame: every column strictly before the
    last one, in column order. *)
Definition feature_columns (S : DataFrame) : list string :=
  firstn (List.length (columns S) - 1) (columns S).

(** The position of the label column: the last one. *)
Definition label_index (S : DataFrame) : nat := List.length (columns S) - 1.

(** The log entries of calling [Gain] on [S] once per column of [cs]. *)
Definition calls_on (S : DataFrame) (cs : list string) : log :=
  map (fun c => (S, c)) cs.

(** [i] is the first position of the largest element of [qs]: nothing in
    [qs] exceeds [qs[i]] and everything before [i] is strictly smaller. *)
Definition is_first_max (qs : list Q) (i : nat) : Prop :=
  exists m,
    nth_error qs i = Some m
    /\ (forall j q, nth_error qs j = Some q -> (q <= m)%Q)
    /\ (forall j q, j < i -> nth_error qs j = Some q -> (q < m)%Q).

(** A call that ends by returning, whatever the value. *)
Definition returns_normally {A} (o : outcome A) : Prop :=
  exists a, o = Returns a.

(** Python's [a >= b], used to read "the result is at least zero". *)
Definition py_ge (a b : pyval) : outcome bool :=
  match a, b with
  | PyFloat x, PyFloat y => Returns (Qle_bool y x)
  | _, _ => Raises "TypeError"
  end.

(** [v >= b] where [v] is the result of a call, propagating its exception. *)
Definition result_ge (o : outcome pyval) (b : pyval) : outcome bool :=
  match o with
  | Returns v => py_ge v b
  | Raises cls => Raises cls
  end.

(** ** The regression cells: synthetic data and its split

    The cell that builds the data for the Keras model.  Its inputs are the
    two random draws, the array [x] and the scalar noise; the floats are
    binary64 and every operation is the elementwise IEEE one. *)

Module FloatLiterals.
Import PrimFloat.
Definition half : float := 0x1.0p-1%float.
Definition two : float := 0x1.0p1%float.
(** The doubles Python reads [.2] and [.8] as. *)
Definition point2 : float := 0x1.999999999999ap-3%float.
Definition point8 : float := 0x1.999999999999ap-1%float.
End FloatLiterals.

Definition float : Type := PrimFloat.float.

(** A row of [x]: [n_feat = 3] floats. *)
Definition row : Type := (float * float * float)%type.

(** [N = 1200] *)
Definition N : Z := 1200.

(** [def true(x): return .5*x[:,0] + .2*x[:,1] + 2*x[:,2]
    + np.random.normal(scale=.1)].  The normal sample is one scalar, added
    to every element. *)
Definition true_ (noise : float) (x : list row) : list float :=
  map (fun r : row =>
         let '(a, b, c) := r in
         PrimFloat.add
           (PrimFloat.add
              (PrimFloat.add (PrimFloat.mul FloatLiterals.half a)
                             (PrimFloat.mul FloatLiterals.point2 b))
              (PrimFloat.mul FloatLiterals.two c))
           noise) x.

(** [l[:k]] and [l[k:]] for a Python integer [k]: a negative [k] counts from
    the end, and both ends are clipped to the sequence. *)
Definition slice_to {A} (l : list A) (k : Z) : list A :=
  if (k <? 0)%Z then firstn (List.length l - Z.to_nat (- k)) l
  else firstn (Z.to_nat k) l.

Definition slice_from {A} (l : list A) (k : Z) : list A :=
  if (k <? 0)%Z then skipn (List.length l - Z.to_nat (- k)) l
  else skipn (Z.to_nat k) l.

(** [int(f // 1)] for a float [f]: the floor of a finite float; [f // 1] is
    [nan] for an infinite or [nan] [f], which [int] rejects. *)
Definition int_floordiv1 (f : float) : outcome Z :=
  match FloatOps.Prim2SF f with
  | SpecFloat.S754_zero _ => Returns 0%Z
  | SpecFloat.S754_finite s m e =>
      let mz := if s then Z.neg m else Z.pos m in
      Returns (if (0 <=? e)%Z then mz * 2 ^ e else mz / 2 ^ (- e))%Z
  | SpecFloat.S754_infinity _ => Raises "ValueError"
  | SpecFloat.S754_nan => Raises "ValueError"
  end.

(** [split = int((N*.8)//1)] *)
Definition split : outcome Z :=
  int_floordiv1
    (PrimFloat.mul (PrimFloat.of_uint63 (Uint63.of_Z N)) FloatLiterals.point8).

(** [split2 = int((len(train_x[:,0]*.2)//1))]: the length of the scaled first
    column, floor-divided by one. *)
Definition split2_of (train_x : list row) : Z :=
  (Z.of_nat
     (List.length
        (map (fun r : row =>
                let '(a, _, _) := r in PrimFloat.mul a FloatLiterals.point2)
             train_x)) / 1)%Z.

Record data_split : Type := mkDataSplit {
  train_x : list row;
  train_y : list float;
  test_x : list row;
  test_y : list float;
  val_x : list row;
  val_y : list float
}.

(** [y = true(x); split = ...; train_x = x[:split]; train_y = y[:split];
    test_x = x[split:]; test_y = y[split:]; split2 = ...;
    val_x = x[:split2]; val_y = y[:split2]] *)
Definition split_data (noise : float) (x : list row) : outcome data_split :=
  let y := true_ noise x in
  match split with
  | Raises cls => Raises cls
  | Returns k =>
      let trx := slice_to x k in
      let k2 := split2_of trx in
      Returns (mkDataSplit trx (slice_to y k) (slice_from x k) (slice_from y k)
                 (slice_to x k2) (slice_to y k2))
  end.

(** ** The gradient-descent cell of the regression notebook *)

(** An element of a float64 array: [nan] or a finite number. *)
Inductive float64 : Type :=
| NaN
| Finite (x : Q).

(** What numpy stores when a Python value is assigned into a float64
    array: a number as it is, [None] as [nan]. *)
Definition to_float64 (v : pyval) : float64 :=
  match v with
  | PyNone => NaN
  | PyFloat x => Finite x
  end.

(** [np.zeros(n)]: [n] zeros; a negative [n] is a [ValueError]. *)
Definition np_zeros (n : Z) : outcome (list float64) :=
  if (n <? 0)%Z then Raises "ValueError"
  else Returns (repeat (Finite 0) (Z.to_nat n)).

Fixpoint list_update (a : list float64) (i : nat) (e : float64)
  : option (list float64) :=
  match a, i with
  | [], _ => None
  | _ :: a', O => Some (e :: a')
  | h :: a', Datatypes.S i' => option_map (cons h) (list_update a' i' e)
  end.

(** [a[i] = v] on a float64 array, for a non-negative index: the converted
    value replaces the element; an index past the end is an [IndexError]. *)
Definition setitem (a : list float64) (i : nat) (v : pyval)
  : outcome (list float64) :=
  match list_update a i (to_float64 v) with
  | Some a' => Returns a'
  | None => Raises "IndexError"
  end.

Definition obind {A B} (o : outcome A) (k : A -> outcome B) : outcome B :=
  match o with
  | Returns a => k a
  | Raises cls => Raises cls
  end.

(** [def loss(w, x, y_tr): return], after the "complete me" comment. *)
Definition loss {W X Y : Type} (w : W) (x : X) (y_tr : Y) : outcome pyval :=
  Returns PyNone.

Section gradient_descent.

(** The weights and the data are only passed on to [loss]. *)
Variables W X Y : Type.

(** [gradient_descent] looks the global name [loss] up when it runs; the
    function bound to it is a parameter. *)
Variable LossFn : W -> X -> Y -> outcome pyval.

(** [for i in idxs: loss_f[i] = loss(w,xtrain,ytrain);
    valloss_f[i] = loss(w,xval,yval)].  The two "complete me" comments of
    the body are the only other lines. *)
Fixpoint epochs (w : W) (xtrain : X) (ytrain : Y) (xval : X) (yval : Y)
  (idxs : list nat) (loss_f valloss_f : list float64)
  : outcome (list float64 * list float64) :=
  match idxs with
  | [] => Returns (loss_f, valloss_f)
  | i :: idxs' =>
      obind (LossFn w xtrain ytrain) (fun v =>
      obind (setitem loss_f i v) (fun loss_f' =>
      obind (LossFn w xval yval) (fun v' =>
      obind (setitem valloss_f i v') (fun valloss_f' =>
      epochs w xtrain ytrain xval yval idxs' loss_f' valloss_f'))))
  end.

(** [loss_f = np.zeros(num_epochs); valloss_f = np.zeros(num_epochs);
    for i in range(num_epochs): ...; return w, loss_f, valloss_f].  The
    parameter [learning_rate] is not used. *)
Definition gradient_descent (w : W) (xtrain : X) (ytrain : Y) (xval : X)
  (yval : Y) (learning_rate : Q) (num_epochs : Z)
  : outcome (W * list float64 * list float64) :=
  obind (np_zeros num_epochs) (fun loss_f =>
  obind (np_zeros num_epochs) (fun valloss_f =>
  obind (epochs w xtrain ytrain xval yval (seq 0 (Z.to_nat num_epochs))
           loss_f valloss_f) (fun r =>
  Returns (w, fst r, snd r)))).

End gradient_descent.

(** Four rows of data for the split, and a loss that answers with the number
    of training examples. *)
Definition four_rows : list row :=
  [(FloatLiterals.half, FloatLiterals.two, FloatLiterals.point2);
   (FloatLiterals.two, FloatLiterals.half, FloatLiterals.point8);
   (FloatLiterals.point8, FloatLiterals.point2, FloatLiterals.half);
   (FloatLiterals.point2, FloatLiterals.point8, FloatLiterals.two)].

Definition length_loss (w : unit) (x : list nat) (y : list nat)
  : outcome pyval :=
  Returns (PyFloat (inject_Z (Z.of_nat (List.length x)))).

(** A second table of gains, the first one shifted by one half, and a [Gain]
    that fails on the third feature. *)
Definition shifted_table : list (string * Q) :=
  [("f1", 6 # 10); ("f2", 8 # 10); ("f3", 4 # 5); ("f4", 7 # 10)]%Q.

Definition shifted_gain (c : string) : Q :=
  match table_lookup shifted_table c with
  | Some q => q
  | None => 0%Q
  end.

Definition failing_Gain (S : DataFrame) (c : string) : outcome pyval :=
  if String.eqb c "f3" then Raises "KeyError" else table_Gain tie_table S c.

(** A [Gain] completed for one column only: a number on ["f1"], [None]
    elsewhere. *)
Definition partial_Gain (S : DataFrame) (c : string) : outcome pyval :=
  if String.eqb c "f1" then Returns (PyFloat (1 # 2)) else Returns PyNone.

(** A [Gain] that finds nothing to tell the features apart. *)
Definition zero_Gain (S : DataFrame) (c : string) : outcome pyval :=
  Returns (PyFloat 0).

(** * Properties *)

(** ** Lists and slices *)

Lemma feature_columns_removelast (S : DataFrame) :
  removelast (columns S) = feature_columns S.
Proof.
  unfold feature_columns. rewrite removelast_firstn_len.
  now rewrite Nat.sub_1_r.
Qed.

Lemma feature_columns_length (S : DataFrame) :
  List.length (feature_columns S) = List.length (columns S) - 1.
Proof. unfold feature_columns. rewrite length_firstn. lia. Qed.

Lemma feature_columns_nth (S : DataFrame) (i : nat) (c : string) :
  nth_error (feature_columns S) i = Some c ->
  i < label_index S /\ nth_error (columns S) i = Some c.
Proof.
  unfold feature_columns, label_index. rewrite nth_error_firstn.
  destruct (Nat.ltb_spec i (List.length (columns S) - 1)); [auto | discriminate].
Qed.

Lemma feature_columns_empty (S : DataFrame) :
  List.length (columns S) <= 1 -> feature_columns S = [].
Proof.
  intros H. apply length_zero_iff_nil. rewrite feature_columns_length. lia.
Qed.

(** ** The loop over the feature columns *)

Section loop_facts.

Variable GainFn : DataFrame -> string -> outcome pyval.

(** When every call returns, the loop returns the gains in column order
    and has logged one call per column, in column order. *)
Lemma gains_loop_all_return (S : DataFrame) (v : string -> pyval) :
  forall (cs : list string) (acc : list pyval) (t : log),
    (forall c, In c cs -> GainFn S c = Returns (v c)) ->
    gains_loop GainFn S cs acc t
    = (Returns (acc ++ map v cs), t ++ calls_on S cs).
Proof.
  induction cs as [| c cs IH]; intros acc t Hv; simpl.
  - unfold ret. now rewrite !app_nil_r.
  - unfold bind, call_Gain. rewrite (Hv c (or_introl eq_refl)).
    rewrite IH by (intros c' Hc'; apply Hv; now right).
    now rewrite <- !app_assoc.
Qed.

(** Whatever [Gain] does, the calls made are an initial segment of the
    columns looped over; the loop returns only after calling on all of
    them, with one gain per column. *)
Lemma gains_loop_log (S : DataFrame) :
  forall (cs : list string) (acc : list pyval) (t t' : log)
         (o : outcome (list pyval)),
    gains_loop GainFn S cs acc t = (o, t') ->
    exists called rest,
      cs = called ++ rest
      /\ t' = t ++ calls_on S called
      /\ (forall gains, o = Returns gains ->
            rest = []
            /\ List.length gains = List.length acc + List.length cs).
Proof.
  induction cs as [| c cs IH]; intros acc t t' o Hrun; simpl in Hrun.
  - unfold ret in Hrun. inversion Hrun; subst.
    exists [], []. split; [reflexivity |]. split.
    + simpl. now rewrite app_nil_r.
    + intros gains Hg. inversion Hg; subst. simpl. split; [reflexivity | lia].
  - unfold bind, call_Gain in Hrun.
    destruct (GainFn S c) as [g | cls].
    + apply IH in Hrun. destruct Hrun as (called & rest & Hcs & Ht & Hret).
      exists (c :: called), rest. split; [simpl; now rewrite Hcs |]. split.
      * rewrite Ht. simpl. now rewrite <- app_assoc.
      * intros gains Hg. destruct (Hret gains Hg) as [Hrest Hlen].
        split; [exact Hrest |]. rewrite Hlen, length_app. simpl. lia.
    + inversion Hrun; subst.
      exists [c], cs. split; [reflexivity |]. split; [reflexivity |].
      intros gains Hg. discriminate.
Qed.

End loop_facts.

(** ** [numpy.argmax] *)

(** The scan answers with the index it started from or with an index of
    the part scanned. *)
Lemma argmax_scan_range :
  forall (rest : list pyval) (mp : pyval) (k i r : nat),
    argmax_scan mp k i rest = Returns r ->
    r = k \/ (i <= r < i + List.length rest).
Proof.
  induction rest as [| val rest IH]; intros mp k i r Hscan; simpl in Hscan.
  - inversion Hscan. now left.
  - destruct (py_gt val mp) as [[|] | cls]; try discriminate;
      apply IH in Hscan; simpl; lia.
Qed.

Lemma np_argmax_range (a : list pyval) (r : nat) :
  np_argmax a = Returns r -> r < List.length a.
Proof.
  destruct a as [| x rest]; simpl; [discriminate |].
  intros H. apply argmax_scan_range in H. lia.
Qed.

(** On numbers the scan keeps the invariant "[m], at index [k], is the first
    largest element of the part already seen", and so ends on the first
    largest element of the whole. *)
Lemma argmax_scan_floats :
  forall (qs pre : list Q) (m : Q) (k : nat),
    nth_error pre k = Some m ->
    (forall j q, nth_error pre j = Some q -> (q <= m)%Q) ->
    (forall j q, j < k -> nth_error pre j = Some q -> (q < m)%Q) ->
    exists r,
      argmax_scan (PyFloat m) k (List.length pre) (map PyFloat qs) = Returns r
      /\ is_first_max (pre ++ qs) r.
Proof.
  induction qs as [| q qs IH]; intros pre m k Hk Hle Hlt.
  - exists k. split; [reflexivity |]. rewrite app_nil_r. now exists m.
  - assert (Hkpre : k < List.length pre)
      by (apply nth_error_Some; congruence).
    replace (pre ++ q :: qs) with ((pre ++ [q]) ++ qs)
      by now rewrite <- app_assoc.
    simpl. destruct (Qle_bool q m) eqn:Hq; simpl.
    + apply Qle_bool_iff in Hq.
      destruct (IH (pre ++ [q]) m k) as (r & Hr & Hmax).
      * now rewrite nth_error_app1.
      * intros j q' Hj. rewrite nth_error_app in Hj.
        destruct (Nat.ltb_spec j (List.length pre)); [eauto |].
        destruct (j - List.length pre) as [| n];
          [simpl in Hj; congruence | now destruct n].
      * intros j q' Hjk Hj. rewrite nth_error_app1 in Hj by lia. eauto.
      * exists r. split; [| exact Hmax].
        rewrite length_app, Nat.add_1_r in Hr. exact Hr.
    + assert (Hmq : (m < q)%Q).
      { apply Qnot_le_lt. intros Hc. apply Qle_bool_iff in Hc. congruence. }
      destruct (IH (pre ++ [q]) q (List.length pre)) as (r & Hr & Hmax).
      * rewrite nth_error_app2 by lia. now rewrite Nat.sub_diag.
      * intros j q' Hj. rewrite nth_error_app in Hj.
        destruct (Nat.ltb_spec j (List.length pre)).
        -- apply Qle_trans with m; [eauto | now apply Qlt_le_weak].
        -- destruct (j - List.length pre) as [| n];
             [simpl in Hj; inversion Hj; apply Qle_refl | now destruct n].
      * intros j q' Hjk Hj. rewrite nth_error_app1 in Hj by lia.
        apply Qle_lt_trans with m; eauto.
      * exists r. split; [| exact Hmax].
        rewrite length_app, Nat.add_1_r in Hr. exact Hr.
Qed.

Lemma np_argmax_floats (qs : list Q) :
  qs <> [] ->
  exists r, np_argmax (map PyFloat qs) = Returns r /\ is_first_max qs r.
Proof.
  destruct qs as [| q qs]; [congruence | intros _].
  destruct (argmax_scan_floats qs [q] q 0) as (r & Hr & Hmax).
  - reflexivity.
  - intros [| [| j]] q' Hj; simpl in Hj; inversion Hj. apply Qle_refl.
  - intros j q' Hj. lia.
  - exists r. split; assumption.
Qed.

(** With two or more gains of which the first two are [None], the first
    comparison of the scan already raises. *)
Lemma np_argmax_None (n : nat) :
  np_argmax (repeat PyNone (S (S n))) = Raises "TypeError".
Proof. reflexivity. Qed.

(** ** [find_node], for whichever function is bound to [Gain] *)

Section find_node_facts.

Variable GainFn : DataFrame -> string -> outcome pyval.

(** When [Gain] answers with a number on every feature column,
    [find_node] calls it once per feature column in column order and
    returns the column at the first position of the largest gain. *)
Lemma find_node_float_gains (S : DataFrame) (g : string -> Q) (t : log) :
  feature_columns S <> [] ->
  (forall c, In c (feature_columns S) ->
             GainFn S c = Returns (PyFloat (g c))) ->
  exists i f,
    find_node GainFn S t = (Returns f, t ++ calls_on S (feature_columns S))
    /\ nth_error (feature_columns S) i = Some f
    /\ is_first_max (map g (feature_columns S)) i.
Proof.
  intros Hne Hg. unfold find_node, bind.
  rewrite feature_columns_removelast.
  rewrite (gains_loop_all_return GainFn S (fun c => PyFloat (g c))) by exact Hg.
  simpl. rewrite <- (map_map g PyFloat).
  destruct (np_argmax_floats (map g (feature_columns S))) as (r & Hr & Hmax).
  { intros Hnil. apply map_eq_nil in Hnil. contradiction. }
  unfold lift at 1. rewrite Hr.
  assert (Hlt : r < List.length (feature_columns S)).
  { apply np_argmax_range in Hr. now rewrite !length_map in Hr. }
  destruct (nth_error (feature_columns S) r) as [f |] eqn:Hf;
    [| apply nth_error_None in Hf; lia].
  exists r, f. split; [| split; [exact Hf | exact Hmax]].
  unfold lift, getitem.
  destruct (feature_columns_nth S r f Hf) as [_ Hcol]. now rewrite Hcol.
Qed.

(** With no feature column the loop body never runs and [argmax] is asked
    about an empty array. *)
Lemma find_node_no_features (S : DataFrame) (t : log) :
  List.length (columns S) <= 1 ->
  find_node GainFn S t = (Raises "ValueError", t).
Proof.
  intros Hlen. unfold find_node, bind.
  rewrite feature_columns_removelast, (feature_columns_empty S Hlen).
  reflexivity.
Qed.

(** Whatever [Gain] does: the calls made are an initial segment of the
    feature columns, and a returned name is that of a feature column,
    found after calling [Gain] on all of them. *)
Lemma find_node_outcome (S : DataFrame) (t t' : log) (o : outcome string) :
  find_node GainFn S t = (o, t') ->
  exists called rest,
    feature_columns S = called ++ rest
    /\ t' = t ++ calls_on S called
    /\ (forall f, o = Returns f ->
          rest = []
          /\ exists i, nth_error (feature_columns S) i = Some f).
Proof.
  unfold find_node, bind. rewrite feature_columns_removelast.
  destruct (gains_loop GainFn S (feature_columns S) [] t) as [og tg] eqn:Hloop.
  destruct (gains_loop_log GainFn S _ _ _ _ _ Hloop)
    as (called & rest & Hcs & Htg & Hret).
  destruct og as [gains | cls].
  - destruct (Hret gains eq_refl) as [Hrest Hlen]. simpl in Hlen.
    unfold lift at 1.
    destruct (np_argmax gains) as [r | cls] eqn:Hr.
    + unfold lift, getitem. intros Hrun.
      apply np_argmax_range in Hr. rewrite Hlen in Hr.
      destruct (nth_error (feature_columns S) r) as [c |] eqn:Hc;
        [| apply nth_error_None in Hc; lia].
      destruct (feature_columns_nth S r c Hc) as [_ Hcol].
      rewrite Hcol in Hrun. injection Hrun as Ho Ht'. subst o t'.
      exists called, rest. split; [exact Hcs |]. split; [exact Htg |].
      intros f Hf. injection Hf as Hf. subst f.
      split; [exact Hrest | eauto].
    + intros Hrun. injection Hrun as Ho Ht'. subst o t'.
      exists called, rest. split; [exact Hcs |]. split; [exact Htg |].
      intros f Hf. discriminate.
  - intros Hrun. injection Hrun as Ho Ht'. subst o t'.
    exists called, rest. split; [exact Hcs |]. split; [exact Htg |].
    intros f Hf. discriminate.
Qed.

End find_node_facts.

(** ** [find_node] with the cells as they are *)

(** X2. As shipped, with [Gain] returning [None]: on every data frame with
    two or more feature columns [find_node] raises [TypeError], after
    calling [Gain] on each feature column. *)
Lemma find_node_shipped_TypeError (S : DataFrame) (t : log) :
  3 <= List.length (columns S) ->
  find_node Gain S t = (Raises "TypeError", t ++ calls_on S (feature_columns S)).
Proof.
  intros Hlen. unfold find_node, bind. rewrite feature_columns_removelast.
  rewrite (gains_loop_all_return Gain S (fun _ => PyNone))
    by (intros; reflexivity).
  pose proof (feature_columns_length S) as Hfl.
  destruct (feature_columns S) as [| c1 [| c2 cs]]; simpl in Hfl; try lia.
  reflexivity.
Qed.

(** X3. As shipped, on a data frame with exactly one feature column
    [find_node] returns that column: a single gain is never compared. *)
Lemma find_node_shipped_one_feature (S : DataFrame) (t : log) (f l : string) :
  columns S = [f; l] ->
  find_node Gain S t = (Returns f, t ++ [(S, f)]).
Proof. intros Hcols. unfold find_node, bind. rewrite Hcols. reflexivity. Qed.

Example D4_partition :
  select_rows D4 "A" "x" = Returns D4_x /\ select_rows D4 "A" "y" = Returns D4_y.
Proof. split; reflexivity. Qed.

Example find_node_D4 : find_node Gain D4 [] = (Returns "A", [(D4, "A")]).
Proof. reflexivity. Qed.

Example find_node_car_head :
  fst (find_node Gain car_head []) = Raises "TypeError".
Proof. reflexivity. Qed.

Example find_node_tie :
  find_node (table_Gain tie_table) tie_df []
  = (Returns "f2", calls_on tie_df ["f1"; "f2"; "f3"; "f4"]).
Proof. reflexivity. Qed.

(** * The claims *)

(** C1, on the cells as they are.  On the head of the car data, which has
    records and six feature columns, [find_node] calls [Gain] on every
    feature column in column order, as stated; but each gain is [None],
    [argmax] raises [TypeError], and no feature name is returned. *)
Theorem find_node_shipped_car_head_no_feature :
  rows car_head <> []
  /\ feature_columns car_head <> []
  /\ find_node Gain car_head []
     = (Raises "TypeError",
        calls_on car_head
          ["buying"; "maint"; "doors"; "persons"; "lug_boot"; "safety"])
  /\ forall f, fst (find_node Gain car_head []) <> Returns f.
Proof.
  split; [discriminate |]. split; [discriminate |].
  split; [reflexivity |]. intros f. simpl. discriminate.
Qed.

(** X14. What [find_node] does once [Gain] is completed: for a data frame
    with at least one record and at least one feature column, and a [Gain]
    that answers with a number [g c] for each feature column [c],
    [find_node] calls [Gain] on every column except the last one, in column
    order, and returns the name of the feature column at the first position
    where the gain is largest; no gain exceeds it and every gain before it
    is strictly smaller. *)
Theorem find_node_returns_first_max_gain
  (GainFn : DataFrame -> string -> outcome pyval)
  (S : DataFrame) (g : string -> Q) (t : log) :
  rows S <> [] ->
  feature_columns S <> [] ->
  (forall c, In c (feature_columns S) ->
             GainFn S c = Returns (PyFloat (g c))) ->
  exists i f,
    find_node GainFn S t = (Returns f, t ++ calls_on S (feature_columns S))
    /\ nth_error (feature_columns S) i = Some f
    /\ is_first_max (map g (feature_columns S)) i.
Proof.
  intros _ Hne Hg. now apply find_node_float_gains.
Qed.

Lemma find_node_returns_first_max_gain_witness :
  rows tie_df <> []
  /\ feature_columns tie_df <> []
  /\ exists i f,
       find_node (table_Gain tie_table) tie_df []
       = (Returns f, [] ++ calls_on tie_df (feature_columns tie_df))
       /\ nth_error (feature_columns tie_df) i = Some f
       /\ is_first_max (map tie_gain (feature_columns tie_df)) i.
Proof.
  split; [discriminate |]. split; [discriminate |].
  apply (find_node_returns_first_max_gain
           (table_Gain tie_table) tie_df tie_gain []).
  - discriminate.
  - discriminate.
  - intros c Hc. simpl in Hc.
    destruct Hc as [<- | [<- | [<- | [<- | []]]]]; reflexivity.
Defined.

(** C10. [find_node] takes the label to be the last column, by position:
    for a data frame of two or more columns and whatever [Gain] does, every
    call to [Gain] is on a column strictly before the last one, in column
    order; a returned name is the name of a column strictly before the
    last one, obtained after calling [Gain] on all of them; and when the
    column names are distinct it is not the name of the last column. *)
Theorem find_node_label_by_position
  (GainFn : DataFrame -> string -> outcome pyval)
  (S : DataFrame) (t t' : log) (o : outcome string) :
  2 <= List.length (columns S) ->
  find_node GainFn S t = (o, t') ->
  (exists called,
      t' = t ++ calls_on S called
      /\ forall k c, nth_error called k = Some c ->
                     k < label_index S /\ nth_error (columns S) k = Some c)
  /\ (forall f, o = Returns f ->
        t' = t ++ calls_on S (feature_columns S)
        /\ (exists i, i < label_index S /\ nth_error (columns S) i = Some f)
        /\ (NoDup (columns S) ->
            nth_error (columns S) (label_index S) <> Some f)).
Proof.
  intros Hlen Hrun.
  destruct (find_node_outcome GainFn S t t' o Hrun)
    as (called & rest & Hcs & Ht' & Hret).
  split.
  - exists called. split; [exact Ht' |].
    intros k c Hk. apply feature_columns_nth. rewrite Hcs.
    rewrite nth_error_app1; [exact Hk |].
    apply nth_error_Some. congruence.
  - intros f Hf. destruct (Hret f Hf) as [Hrest [i Hi]].
    subst rest. rewrite app_nil_r in Hcs. split; [congruence |].
    destruct (feature_columns_nth S i f Hi) as [Hlt Hcol].
    split; [eauto |].
    intros Hnd Hlast.
    assert (i = label_index S); [| lia].
    apply (proj1 (NoDup_nth_error (columns S)) Hnd).
    + unfold label_index in Hlt. lia.
    + congruence.
Qed.

Lemma find_node_label_by_position_witness :
  (exists called,
      [(D4, "A")] = [] ++ calls_on D4 called
      /\ forall k c, nth_error called k = Some c ->
                     k < label_index D4 /\ nth_error (columns D4) k = Some c)
  /\ (forall f, Returns "A" = Returns f ->
        [(D4, "A")] = [] ++ calls_on D4 (feature_columns D4)
        /\ (exists i, i < label_index D4 /\ nth_error (columns D4) i = Some f)
        /\ (NoDup (columns D4) ->
            nth_error (columns D4) (label_index D4) <> Some f)).
Proof.
  apply (find_node_label_by_position Gain D4 [] [(D4, "A")] (Returns "A")).
  - simpl. lia.
  - reflexivity.
Defined.

(** C9. As shipped, [Entropy] returns [None] for every data frame and
    [Gain] returns [None] for every data frame and feature: neither ever
    produces a number. *)
Theorem Entropy_Gain_return_None :
  (forall S, Entropy S = Returns PyNone)
  /\ (forall S feature, Gain S feature = Returns PyNone)
  /\ (forall S x, Entropy S <> Returns (PyFloat x))
  /\ (forall S feature x, Gain S feature <> Returns (PyFloat x)).
Proof.
  repeat split; intros; unfold Entropy, Gain; discriminate.
Qed.

(** C7, as stated, fails.  Given a data frame with a label column only,
    [find_node] raises [ValueError], not [InvalidInputError]; given one with
    a feature column and zero records, it returns the feature column. *)
Lemma find_node_spec_errors_counterexample :
  (fst (find_node Gain label_only_df []) = Raises "ValueError"
   /\ fst (find_node Gain label_only_df []) <> Raises "InvalidInputError")
  /\ (rows no_rows_AL = []
      /\ fst (find_node Gain no_rows_AL []) = Returns "A"
      /\ fst (find_node Gain no_rows_AL []) <> Raises "EmptyDatasetError").
Proof.
  repeat split; simpl; discriminate.
Qed.

(** C7, amended.  Given a data frame with no feature column, [find_node]
    fails with the [ValueError] of [argmax] on an empty sequence, without
    calling [Gain].  It makes no check on the number of records: given zero
    records and at least one feature column, it returns the name of a
    feature column whenever [Gain] answers with a number for each of
    them. *)
Theorem find_node_error_conditions
  (GainFn : DataFrame -> string -> outcome pyval) (S : DataFrame) (t : log) :
  (List.length (columns S) <= 1 ->
   find_node GainFn S t = (Raises "ValueError", t))
  /\ (rows S = [] ->
      feature_columns S <> [] ->
      forall g : string -> Q,
        (forall c, In c (feature_columns S) ->
                   GainFn S c = Returns (PyFloat (g c))) ->
        exists f,
          fst (find_node GainFn S t) = Returns f
          /\ In f (feature_columns S)).
Proof.
  split.
  - apply find_node_no_features.
  - intros _ Hne g Hg.
    destruct (find_node_float_gains GainFn S g t Hne Hg)
      as (i & f & Hrun & Hi & _).
    exists f. rewrite Hrun. split; [reflexivity |].
    now apply nth_error_In with i.
Qed.

Lemma find_node_error_conditions_witness :
  find_node Gain label_only_df [] = (Raises "ValueError", [])
  /\ exists f,
       fst (find_node (table_Gain tie_table) no_rows_df []) = Returns f
       /\ In f (feature_columns no_rows_df).
Proof.
  split.
  - apply (proj1 (find_node_error_conditions Gain label_only_df [])).
    simpl. lia.
  - apply (proj2 (find_node_error_conditions
                    (table_Gain tie_table) no_rows_df [])
             eq_refl) with (g := tie_gain).
    + discriminate.
    + intros c Hc. simpl in Hc.
      destruct Hc as [<- | [<- | [<- | [<- | []]]]]; reflexivity.
Defined.

(** C8, as stated, fails.  On zero records neither [Entropy] nor [Gain]
    raises [EmptyDatasetError], and [Gain] raises no [InvalidInputError]
    for the label column ["L"] of [D4] or for ["B"], which [D4] lacks. *)
Lemma Entropy_Gain_spec_errors_counterexample :
  rows no_rows_AL = []
  /\ Entropy no_rows_AL <> Raises "EmptyDatasetError"
  /\ Gain no_rows_AL "A" <> Raises "EmptyDatasetError"
  /\ nth_error (columns D4) (label_index D4) = Some "L"
  /\ Gain D4 "L" <> Raises "InvalidInputError"
  /\ ~ In "B" (columns D4)
  /\ Gain D4 "B" <> Raises "InvalidInputError".
Proof.
  repeat split; try discriminate.
  simpl. intros [H | [H | []]]; discriminate.
Qed.

(** C8, amended.  [Entropy] and [Gain] validate nothing and raise nothing:
    each call returns normally, for every data frame (zero records
    included) and every column name (the label column and names outside
    the schema included). *)
Theorem Entropy_Gain_raise_nothing (S : DataFrame) (feature : string) :
  returns_normally (Entropy S) /\ returns_normally (Gain S feature).
Proof.
  split; [exists PyNone | exists PyNone]; reflexivity.
Qed.

(** C2 at a data frame whose labels are all ["1"]: [Entropy] yields [None],
    not [0.0] nor any other number. *)
Theorem Entropy_pure_df_not_a_number :
  Entropy pure_df = Returns PyNone
  /\ forall x, Entropy pure_df <> Returns (PyFloat x).
Proof. split; [reflexivity | discriminate]. Qed.

(** C3 at the worked example and its feature ["A"]: [Gain] yields [None],
    not a number, so not the entropy difference either. *)
Theorem Gain_D4_not_a_number :
  Gain D4 "A" = Returns PyNone
  /\ forall x, Gain D4 "A" <> Returns (PyFloat x).
Proof. split; [reflexivity | discriminate]. Qed.

(** C4 at a data frame whose feature ["A"] is constant: [Gain] yields
    [None]; comparing it with zero raises [TypeError], and it is not
    [0.0]. *)
Theorem Gain_constant_feature_not_zero :
  Gain constant_feature_df "A" = Returns PyNone
  /\ result_ge (Gain constant_feature_df "A") (PyFloat 0) = Raises "TypeError"
  /\ forall x, Gain constant_feature_df "A" <> Returns (PyFloat x).
Proof. repeat split; discriminate. Qed.

(** C5 at a data frame with two labels, one record each: [Entropy] yields
    [None]; comparing it with zero raises [TypeError], and it is not
    [log2 2 = 1.0]. *)
Theorem Entropy_uniform_df_not_one :
  Entropy uniform_df = Returns PyNone
  /\ result_ge (Entropy uniform_df) (PyFloat 0) = Raises "TypeError"
  /\ forall x, Entropy uniform_df <> Returns (PyFloat x).
Proof. repeat split; discriminate. Qed.

(** C6, the worked example: [Entropy] of the four records and of each part
    of the partition on ["A"], and [Gain] on ["A"], all yield [None]. *)
Theorem worked_example_yields_None :
  Entropy D4 = Returns PyNone
  /\ Entropy D4_x = Returns PyNone
  /\ Entropy D4_y = Returns PyNone
  /\ Gain D4 "A" = Returns PyNone.
Proof. repeat split. Qed.

(** * Further properties of [find_node] *)

(** ** When [Gain] raises *)

Lemma gains_loop_raises
  (GainFn : DataFrame -> string -> outcome pyval) (S : DataFrame)
  (c cls : string) (after : list string) :
  GainFn S c = Raises cls ->
  forall (before : list string) (acc : list pyval) (t : log),
    (forall b, In b before -> returns_normally (GainFn S b)) ->
    gains_loop GainFn S (before ++ c :: after) acc t
    = (Raises cls, t ++ calls_on S (before ++ [c])).
Proof.
  intros Hc. induction before as [| b before IH]; intros acc t Hb; simpl.
  - unfold bind, call_Gain. now rewrite Hc.
  - unfold bind, call_Gain.
    destruct (Hb b (or_introl eq_refl)) as [v Hv]. rewrite Hv.
    rewrite IH by (intros b' Hb'; apply Hb; now right).
    now rewrite <- app_assoc.
Qed.

(** X1. If [Gain] raises on a feature column and returns on every feature
    column before it, [find_node] raises that same exception, having called
    [Gain] on the columns up to that one and on none after it. *)
Theorem find_node_propagates_first_exception
  (GainFn : DataFrame -> string -> outcome pyval) (S : DataFrame) (t : log)
  (before after : list string) (c cls : string) :
  feature_columns S = before ++ c :: after ->
  (forall b, In b before -> returns_normally (GainFn S b)) ->
  GainFn S c = Raises cls ->
  find_node GainFn S t = (Raises cls, t ++ calls_on S (before ++ [c])).
Proof.
  intros Hcols Hbefore Hc. unfold find_node, bind.
  rewrite feature_columns_removelast, Hcols.
  now rewrite (gains_loop_raises GainFn S c cls after Hc before [] t Hbefore).
Qed.

Lemma find_node_propagates_first_exception_witness :
  find_node failing_Gain tie_df []
  = (Raises "KeyError", [] ++ calls_on tie_df (["f1"; "f2"] ++ ["f3"])).
Proof.
  apply (find_node_propagates_first_exception
           failing_Gain tie_df [] ["f1"; "f2"] ["f4"] "f3" "KeyError").
  - reflexivity.
  - intros b Hb. simpl in Hb. destruct Hb as [<- | [<- | []]];
      eexists; reflexivity.
  - reflexivity.
Defined.

(** ** When [Gain] returns [None] *)

Lemma argmax_scan_None :
  forall (rest : list pyval) (mp : pyval) (k i : nat),
    In PyNone rest -> argmax_scan mp k i rest = Raises "TypeError".
Proof.
  induction rest as [| val rest IH]; intros mp k i Hin; [contradiction |].
  simpl. destruct val as [| x]; [reflexivity |].
  destruct Hin as [Hval | Hin]; [discriminate |].
  destruct mp as [| y]; [reflexivity |]. simpl.
  destruct (negb (Qle_bool x y)); now apply IH.
Qed.

Lemma np_argmax_with_None (a : list pyval) :
  2 <= List.length a -> In PyNone a -> np_argmax a = Raises "TypeError".
Proof.
  destruct a as [| x [| val rest]]; simpl; try lia. intros _ Hin.
  destruct x as [| q].
  - now destruct val.
  - destruct Hin as [Hx | Hin]; [discriminate |].
    now apply (argmax_scan_None (val :: rest)).
Qed.

(** X4. If [Gain] returns on every feature column and returns [None] on at
    least one of two or more, [find_node] raises [TypeError], after calling
    [Gain] on every feature column. *)
Theorem find_node_None_gain_TypeError
  (GainFn : DataFrame -> string -> outcome pyval) (S : DataFrame)
  (v : string -> pyval) (t : log) :
  2 <= List.length (feature_columns S) ->
  (forall c, In c (feature_columns S) -> GainFn S c = Returns (v c)) ->
  (exists c, In c (feature_columns S) /\ v c = PyNone) ->
  find_node GainFn S t
  = (Raises "TypeError", t ++ calls_on S (feature_columns S)).
Proof.
  intros Hlen Hv [c [Hc Hnone]]. unfold find_node, bind.
  rewrite feature_columns_removelast.
  rewrite (gains_loop_all_return GainFn S v) by exact Hv.
  simpl. unfold lift at 1. rewrite np_argmax_with_None; [reflexivity | |].
  - now rewrite length_map.
  - rewrite <- Hnone. now apply in_map.
Qed.

Lemma find_node_None_gain_TypeError_witness :
  find_node partial_Gain tie_df []
  = (Raises "TypeError", [] ++ calls_on tie_df (feature_columns tie_df)).
Proof.
  apply (find_node_None_gain_TypeError partial_Gain tie_df
           (fun c => if String.eqb c "f1" then PyFloat (1 # 2) else PyNone) []).
  - simpl. lia.
  - intros c _. unfold partial_Gain. now destruct (String.eqb c "f1").
  - exists "f2". split; [simpl; auto | reflexivity].
Defined.

Lemma find_node_shipped_TypeError_witness :
  find_node Gain car_head []
  = (Raises "TypeError", [] ++ calls_on car_head (feature_columns car_head)).
Proof.
  apply (find_node_shipped_TypeError car_head []). simpl. lia.
Defined.

Lemma find_node_shipped_one_feature_witness :
  find_node Gain D4 [] = (Returns "A", [] ++ [(D4, "A")]).
Proof.
  apply (find_node_shipped_one_feature D4 [] "A" "L"). reflexivity.
Defined.

(** ** Ties and the order of the gains *)

Lemma is_first_max_unique (qs : list Q) (i j : nat) :
  is_first_max qs i -> is_first_max qs j -> i = j.
Proof.
  intros (m & Hi & Hmle & Hmlt) (m' & Hj & Hmle' & Hmlt').
  destruct (Nat.lt_total i j) as [Hlt | [Heq | Hlt]]; [| exact Heq |].
  - exfalso. apply (Qlt_not_le m m'); eauto.
  - exfalso. apply (Qlt_not_le m' m); eauto.
Qed.

(** X5. If [Gain] answers with the same number on every feature column,
    [find_node] returns the first column. *)
Theorem find_node_all_equal_returns_first
  (GainFn : DataFrame -> string -> outcome pyval) (S : DataFrame)
  (g : string -> Q) (t : log) (c0 : string) :
  nth_error (feature_columns S) 0 = Some c0 ->
  (forall c, In c (feature_columns S) ->
             GainFn S c = Returns (PyFloat (g c))) ->
  (forall c d, In c (feature_columns S) -> In d (feature_columns S) ->
               (g c == g d)%Q) ->
  fst (find_node GainFn S t) = Returns c0.
Proof.
  intros H0 Hg Heq.
  assert (Hne : feature_columns S <> []) by (intros E; now rewrite E in H0).
  destruct (find_node_float_gains GainFn S g t Hne Hg)
    as (i & f & Hrun & Hi & (m & Hm & _ & Hlt)).
  rewrite Hrun. simpl. destruct i as [| i]; [congruence |].
  exfalso. rewrite nth_error_map, Hi in Hm. injection Hm as Hm.
  apply (Qlt_irrefl m). rewrite <- Hm at 1.
  rewrite <- (Heq c0 f) by (eapply nth_error_In; eauto).
  apply (Hlt 0); [lia |]. now rewrite nth_error_map, H0.
Qed.

Lemma find_node_all_equal_returns_first_witness :
  fst (find_node zero_Gain tie_df []) = Returns "f1".
Proof.
  apply (find_node_all_equal_returns_first zero_Gain tie_df (fun _ => 0%Q)).
  - reflexivity.
  - reflexivity.
  - intros c d _ _. reflexivity.
Defined.

(** X7. Only the order of the gains matters: two completions of [Gain] that
    answer with numbers and compare every two feature columns the same way
    make [find_node] return the same column. *)
Theorem find_node_depends_on_order_only
  (GainFn GainFn' : DataFrame -> string -> outcome pyval) (S : DataFrame)
  (g g' : string -> Q) (t t' : log) :
  feature_columns S <> [] ->
  (forall c, In c (feature_columns S) ->
             GainFn S c = Returns (PyFloat (g c))) ->
  (forall c, In c (feature_columns S) ->
             GainFn' S c = Returns (PyFloat (g' c))) ->
  (forall c d, In c (feature_columns S) -> In d (feature_columns S) ->
               ((g c <= g d)%Q <-> (g' c <= g' d)%Q)) ->
  fst (find_node GainFn S t) = fst (find_node GainFn' S t').
Proof.
  intros Hne Hg Hg' Hord.
  destruct (find_node_float_gains GainFn S g t Hne Hg)
    as (i & f & Hrun & Hi & Hmax).
  destruct (find_node_float_gains GainFn' S g' t' Hne Hg')
    as (i' & f' & Hrun' & Hi' & (m' & Hm' & Hle' & Hlt')).
  rewrite Hrun, Hrun'. simpl.
  assert (Hf' : In f' (feature_columns S)) by (eapply nth_error_In; eauto).
  assert (Hmax' : is_first_max (map g (feature_columns S)) i').
  { rewrite nth_error_map, Hi' in Hm'. injection Hm' as Hm'. subst m'.
    exists (g f'). split; [now rewrite nth_error_map, Hi' |]. split.
    - intros j q Hj. rewrite nth_error_map in Hj.
      destruct (nth_error (feature_columns S) j) as [c |] eqn:Hc;
        [| discriminate].
      injection Hj as Hj. subst q.
      apply Hord; [eapply nth_error_In; eauto | exact Hf' |].
      apply (Hle' j). now rewrite nth_error_map, Hc.
    - intros j q Hji Hj. rewrite nth_error_map in Hj.
      destruct (nth_error (feature_columns S) j) as [c |] eqn:Hc;
        [| discriminate].
      injection Hj as Hj. subst q.
      apply Qnot_le_lt. intros Hcontra.
      apply (Qlt_not_le (g' c) (g' f')).
      + apply (Hlt' j); [exact Hji |]. now rewrite nth_error_map, Hc.
      + apply Hord; [exact Hf' | eapply nth_error_In; eauto | exact Hcontra]. }
  assert (i = i') by (eapply is_first_max_unique; eauto).
  subst i'. congruence.
Qed.

Lemma find_node_depends_on_order_only_witness :
  fst (find_node (table_Gain tie_table) tie_df [])
  = fst (find_node (table_Gain shifted_table) tie_df []).
Proof.
  apply (find_node_depends_on_order_only
           (table_Gain tie_table) (table_Gain shifted_table) tie_df
           tie_gain shifted_gain [] []).
  - discriminate.
  - intros c Hc. simpl in Hc.
    destruct Hc as [<- | [<- | [<- | [<- | []]]]]; reflexivity.
  - intros c Hc. simpl in Hc.
    destruct Hc as [<- | [<- | [<- | [<- | []]]]]; reflexivity.
  - intros c d Hc Hd. simpl in Hc, Hd.
    destruct Hc as [<- | [<- | [<- | [<- | []]]]];
      destruct Hd as [<- | [<- | [<- | [<- | []]]]];
      unfold Qle; simpl; lia.
Defined.

(** ** What [find_node] reads *)

Lemma gains_loop_outcome_ext
  (GainFn GainFn' : DataFrame -> string -> outcome pyval) (S S' : DataFrame) :
  forall (cs : list string) (acc : list pyval) (t t' : log),
    (forall c, In c cs -> GainFn S c = GainFn' S' c) ->
    fst (gains_loop GainFn S cs acc t) = fst (gains_loop GainFn' S' cs acc t').
Proof.
  induction cs as [| c cs IH]; intros acc t t' Hext; simpl; [reflexivity |].
  unfold bind, call_Gain. rewrite <- (Hext c (or_introl eq_refl)).
  destruct (GainFn S c) as [v | cls]; [| reflexivity].
  apply IH. intros c' Hc'. apply Hext. now right.
Qed.

(** X6. [find_node] reads the column labels and nothing else of the data
    frame: on two data frames with the same column labels, for which [Gain]
    does the same on every feature column, it ends the same way. *)
Theorem find_node_reads_only_columns
  (GainFn GainFn' : DataFrame -> string -> outcome pyval) (S S' : DataFrame)
  (t t' : log) :
  columns S = columns S' ->
  (forall c, In c (feature_columns S) -> GainFn S c = GainFn' S' c) ->
  fst (find_node GainFn S t) = fst (find_node GainFn' S' t').
Proof.
  intros Hcols Hext. unfold find_node, bind. rewrite <- Hcols.
  rewrite feature_columns_removelast.
  pose proof (gains_loop_outcome_ext GainFn GainFn' S S'
                (feature_columns S) [] t t' Hext) as Hloop.
  destruct (gains_loop GainFn S (feature_columns S) [] t) as [o1 t1].
  destruct (gains_loop GainFn' S' (feature_columns S) [] t') as [o2 t2].
  simpl in Hloop. subst o2. destruct o1 as [gains | cls]; [| reflexivity].
  unfold lift. destruct (np_argmax gains); [| reflexivity].
  reflexivity.
Qed.

Lemma find_node_reads_only_columns_witness :
  fst (find_node (table_Gain tie_table) tie_df [])
  = fst (find_node (table_Gain tie_table) no_rows_df []).
Proof.
  apply (find_node_reads_only_columns
           (table_Gain tie_table) (table_Gain tie_table) tie_df no_rows_df).
  - reflexivity.
  - intros c _. reflexivity.
Defined.

(** * The data split of the regression cells *)

(** ** Slices *)

Lemma slice_to_from_app {A} (l : list A) (k : Z) :
  slice_to l k ++ slice_from l k = l.
Proof.
  unfold slice_to, slice_from. destruct (k <? 0)%Z; apply firstn_skipn.
Qed.

Lemma slice_to_map {A B} (f : A -> B) (l : list A) (k : Z) :
  slice_to (map f l) k = map f (slice_to l k).
Proof.
  unfold slice_to. rewrite length_map.
  destruct (k <? 0)%Z; apply firstn_map.
Qed.

Lemma slice_from_map {A B} (f : A -> B) (l : list A) (k : Z) :
  slice_from (map f l) k = map f (slice_from l k).
Proof.
  unfold slice_from. rewrite length_map.
  destruct (k <? 0)%Z; apply skipn_map.
Qed.

Lemma firstn_length_firstn {A} (n : nat) (l : list A) :
  firstn (List.length (firstn n l)) l = firstn n l.
Proof.
  rewrite length_firstn. destruct (Nat.le_ge_cases n (List.length l)) as [H | H].
  - now rewrite Nat.min_l.
  - rewrite Nat.min_r by exact H. now rewrite !firstn_all2.
Qed.

(** Slicing up to the length of a prefix slice gives that slice again. *)
Lemma slice_to_length_slice_to {A} (l : list A) (k : Z) :
  slice_to l (Z.of_nat (List.length (slice_to l k))) = slice_to l k.
Proof.
  unfold slice_to at 1.
  destruct (Z.ltb_spec (Z.of_nat (List.length (slice_to l k))) 0); [lia |].
  rewrite Nat2Z.id. unfold slice_to.
  destruct (k <? 0)%Z; apply firstn_length_firstn.
Qed.

(** [cols[:-1]], as [find_node] uses it, drops the last element. *)
Lemma slice_to_minus_one {A} (l : list A) : slice_to l (-1) = removelast l.
Proof.
  unfold slice_to. simpl. rewrite removelast_firstn_len.
  now rewrite Nat.sub_1_r.
Qed.

(** ** The cut points *)

Lemma split_value : split = Returns 960%Z.
Proof. vm_compute. reflexivity. Qed.

Lemma split2_of_length (trx : list row) :
  split2_of trx = Z.of_nat (List.length trx).
Proof. unfold split2_of. now rewrite length_map, Z.div_1_r. Qed.

Lemma split_data_eq (noise : float) (x : list row) :
  split_data noise x
  = Returns (mkDataSplit
               (slice_to x 960) (slice_to (true_ noise x) 960)
               (slice_from x 960) (slice_from (true_ noise x) 960)
               (slice_to x (split2_of (slice_to x 960)))
               (slice_to (true_ noise x) (split2_of (slice_to x 960)))).
Proof. unfold split_data. now rewrite split_value. Qed.

Lemma slice_to_nonneg {A} (l : list A) (k : Z) :
  (0 <= k)%Z -> slice_to l k = firstn (Z.to_nat k) l.
Proof.
  intros Hk. unfold slice_to. destruct (Z.ltb_spec k 0); [lia | reflexivity].
Qed.

Lemma to_nat_960 : Z.to_nat 960 = 960.
Proof. apply Nat2Z.inj. rewrite Z2Nat.id by lia. reflexivity. Qed.

Ltac split_data_run :=
  eexists; split; [apply split_data_eq |];
  cbn [train_x train_y test_x test_y val_x val_y].

(** X8. The training and test parts are a partition of the data: for every
    [x] and noise, the training rows followed by the test rows are [x],
    likewise for the targets, and the cut is after the first 960 rows (or
    after all of them, if there are fewer). *)
Theorem split_data_train_test_partition (noise : float) (x : list row) :
  exists d,
    split_data noise x = Returns d
    /\ train_x d ++ test_x d = x
    /\ train_y d ++ test_y d = true_ noise x
    /\ List.length (train_x d) = Nat.min 960 (List.length x)
    /\ List.length (train_y d) = List.length (train_x d)
    /\ List.length (test_y d) = List.length (test_x d).
Proof.
  split_data_run.
  split; [apply slice_to_from_app |].
  split; [apply slice_to_from_app |].
  unfold true_. rewrite slice_to_map, slice_from_map, !length_map.
  split; [| split; reflexivity].
  rewrite slice_to_nonneg by lia. rewrite length_firstn. now rewrite to_nat_960.
Qed.

(** X9. The validation part is the training part: [split2] is the number of
    training rows, not a fifth of it, so [val_x] and [val_y] are [train_x]
    and [train_y] themselves. *)
Theorem split_data_validation_is_training (noise : float) (x : list row) :
  exists d,
    split_data noise x = Returns d
    /\ val_x d = train_x d
    /\ val_y d = train_y d.
Proof.
  split_data_run.
  rewrite split2_of_length. split.
  - apply slice_to_length_slice_to.
  - unfold true_. rewrite !slice_to_map. f_equal.
    apply slice_to_length_slice_to.
Qed.

(** X10. Rows and targets stay aligned, with one noise value throughout:
    each part's targets are [true] of that part's rows. *)
Theorem split_data_targets_aligned (noise : float) (x : list row) :
  exists d,
    split_data noise x = Returns d
    /\ train_y d = true_ noise (train_x d)
    /\ test_y d = true_ noise (test_x d)
    /\ val_y d = true_ noise (val_x d).
Proof.
  split_data_run. unfold true_.
  rewrite !slice_to_map, slice_from_map. repeat split.
Qed.

Example split_data_four_rows :
  exists d,
    split_data FloatLiterals.half four_rows = Returns d
    /\ train_x d = four_rows /\ test_x d = [] /\ val_x d = four_rows.
Proof. split_data_run. repeat split. Qed.

(** * The gradient-descent cell *)

Lemma list_update_length :
  forall (a a' : list float64) (i : nat) (e : float64),
    list_update a i e = Some a' -> List.length a' = List.length a.
Proof.
  induction a as [| h a IH]; intros a' i e H; simpl in H; [discriminate |].
  destruct i as [| i].
  - injection H as <-. reflexivity.
  - destruct (list_update a i e) as [a0 |] eqn:Ha; [| discriminate].
    injection H as <-. simpl. f_equal. eauto.
Qed.

Lemma setitem_length (a a' : list float64) (i : nat) (v : pyval) :
  setitem a i v = Returns a' -> List.length a' = List.length a.
Proof.
  unfold setitem.
  destruct (list_update a i (to_float64 v)) eqn:Hu; [| discriminate].
  intros H. injection H as <-. eapply list_update_length; eauto.
Qed.

(** Storing at the first free position of an array filled so far. *)
Lemma setitem_fill (v : pyval) (k m : nat) :
  setitem (repeat (to_float64 v) k ++ repeat (Finite 0) (S m)) k v
  = Returns (repeat (to_float64 v) (S k) ++ repeat (Finite 0) m).
Proof.
  unfold setitem.
  assert (H : list_update (repeat (to_float64 v) k ++ repeat (Finite 0) (S m))
                k (to_float64 v)
              = Some (repeat (to_float64 v) (S k) ++ repeat (Finite 0) m)).
  { induction k as [| k IH]; simpl; [reflexivity |].
    simpl in IH. now rewrite IH. }
  now rewrite H.
Qed.

Section gradient_descent_facts.

Variables W X Y : Type.
Variable LossFn : W -> X -> Y -> outcome pyval.
Variables (w : W) (xtrain : X) (ytrain : Y) (xval : X) (yval : Y).

Lemma epochs_fill (v v' : pyval) :
  LossFn w xtrain ytrain = Returns v ->
  LossFn w xval yval = Returns v' ->
  forall m k : nat,
    epochs W X Y LossFn w xtrain ytrain xval yval (seq k m)
      (repeat (to_float64 v) k ++ repeat (Finite 0) m)
      (repeat (to_float64 v') k ++ repeat (Finite 0) m)
    = Returns (repeat (to_float64 v) (k + m), repeat (to_float64 v') (k + m)).
Proof.
  intros Hv Hv'. induction m as [| m IH]; intros k.
  - simpl. now rewrite !app_nil_r, Nat.add_0_r.
  - cbn [seq epochs]. rewrite Hv, Hv'. cbn [obind].
    rewrite !setitem_fill. cbn [obind]. rewrite IH.
    now rewrite Nat.add_succ_r.
Qed.

(** With a [loss] that returns, whatever it returns, every epoch stores
    the two converted results and the weights are passed through. *)
Lemma gradient_descent_fill (v v' : pyval) (learning_rate : Q)
  (num_epochs : Z) :
  (0 <= num_epochs)%Z ->
  LossFn w xtrain ytrain = Returns v ->
  LossFn w xval yval = Returns v' ->
  gradient_descent W X Y LossFn w xtrain ytrain xval yval
    learning_rate num_epochs
  = Returns (w, repeat (to_float64 v) (Z.to_nat num_epochs),
                repeat (to_float64 v') (Z.to_nat num_epochs)).
Proof.
  intros Hn Hv Hv'. unfold gradient_descent, np_zeros.
  destruct (Z.ltb_spec num_epochs 0); [lia |]. cbn [obind].
  pose proof (epochs_fill v v' Hv Hv' (Z.to_nat num_epochs) 0) as Hfill.
  cbn [repeat app Nat.add] in Hfill. rewrite Hfill. reflexivity.
Qed.

Lemma epochs_lengths :
  forall (idxs : list nat) (l vl l' vl' : list float64),
    epochs W X Y LossFn w xtrain ytrain xval yval idxs l vl = Returns (l', vl') ->
    List.length l' = List.length l /\ List.length vl' = List.length vl.
Proof.
  induction idxs as [| i idxs IH]; intros l vl l' vl' H; simpl in H.
  - injection H as <- <-. auto.
  - destruct (LossFn w xtrain ytrain) as [v |]; [| discriminate].
    simpl in H. destruct (setitem l i v) as [l1 |] eqn:H1; [| discriminate].
    simpl in H. destruct (LossFn w xval yval) as [v' |]; [| discriminate].
    simpl in H. destruct (setitem vl i v') as [vl1 |] eqn:H2; [| discriminate].
    simpl in H. apply IH in H. apply setitem_length in H1, H2.
    destruct H as [Hl Hvl]. split; congruence.
Qed.

End gradient_descent_facts.

(** X11. [gradient_descent] never updates the weights: when [loss]
    answers with numbers, it returns the weights it was given, and the two
    loss curves are flat, every epoch holding the loss of the initial
    weights on the training and on the validation data. *)
Theorem gradient_descent_returns_initial_weights
  (W X Y : Type) (LossFn : W -> X -> Y -> outcome pyval)
  (w : W) (xtrain : X) (ytrain : Y) (xval : X) (yval : Y)
  (learning_rate : Q) (num_epochs : Z) (a b : Q) :
  (0 <= num_epochs)%Z ->
  LossFn w xtrain ytrain = Returns (PyFloat a) ->
  LossFn w xval yval = Returns (PyFloat b) ->
  gradient_descent W X Y LossFn w xtrain ytrain xval yval
    learning_rate num_epochs
  = Returns (w, repeat (Finite a) (Z.to_nat num_epochs),
                repeat (Finite b) (Z.to_nat num_epochs)).
Proof.
  intros Hn Ha Hb.
  exact (gradient_descent_fill W X Y LossFn w xtrain ytrain xval yval
           (PyFloat a) (PyFloat b) learning_rate num_epochs Hn Ha Hb).
Qed.

Lemma gradient_descent_returns_initial_weights_witness :
  gradient_descent unit (list nat) (list nat) length_loss tt
    [1; 2; 3] [4; 5; 6] [7] [8] (1 # 10) 3
  = Returns (tt, repeat (Finite (inject_Z 3)) (Z.to_nat 3),
                 repeat (Finite (inject_Z 1)) (Z.to_nat 3)).
Proof.
  apply (gradient_descent_returns_initial_weights
           unit (list nat) (list nat) length_loss tt
           [1; 2; 3] [4; 5; 6] [7] [8] (1 # 10) 3 (inject_Z 3) (inject_Z 1)).
  - lia.
  - reflexivity.
  - reflexivity.
Defined.

(** X12. As shipped, with [loss] returning [None]: [gradient_descent]
    raises nothing.  Each [None] is stored as [nan], so for every number of
    epochs from zero up it returns the weights it was given and two curves
    of that many [nan]. *)
Theorem gradient_descent_shipped_nan_curves
  (W X Y : Type) (w : W) (xtrain : X) (ytrain : Y) (xval : X) (yval : Y)
  (learning_rate : Q) (num_epochs : Z) :
  (0 <= num_epochs)%Z ->
  gradient_descent W X Y loss w xtrain ytrain xval yval
    learning_rate num_epochs
  = Returns (w, repeat NaN (Z.to_nat num_epochs),
                repeat NaN (Z.to_nat num_epochs)).
Proof.
  intros Hn.
  exact (gradient_descent_fill W X Y loss w xtrain ytrain xval yval
           PyNone PyNone learning_rate num_epochs Hn eq_refl eq_refl).
Qed.

Lemma gradient_descent_shipped_nan_curves_witness :
  gradient_descent unit (list nat) (list nat) loss tt
    [1; 2; 3] [4; 5; 6] [7] [8] (1 # 10) 100
  = Returns (tt, repeat NaN (Z.to_nat 100), repeat NaN (Z.to_nat 100)).
Proof.
  apply (gradient_descent_shipped_nan_curves
           unit (list nat) (list nat) tt [1; 2; 3] [4; 5; 6] [7] [8]
           (1 # 10) 100).
  lia.
Defined.

(** X13. Whatever [loss] does: a negative number of epochs is a
    [ValueError] and zero epochs return the weights with two empty curves;
    and whenever [gradient_descent] returns, it returns the weights it was
    given and two curves of [num_epochs] entries. *)
Theorem gradient_descent_epoch_count
  (W X Y : Type) (LossFn : W -> X -> Y -> outcome pyval)
  (w : W) (xtrain : X) (ytrain : Y) (xval : X) (yval : Y)
  (learning_rate : Q) (num_epochs : Z) :
  ((num_epochs < 0)%Z ->
   gradient_descent W X Y LossFn w xtrain ytrain xval yval
     learning_rate num_epochs = Raises "ValueError")
  /\ (num_epochs = 0%Z ->
      gradient_descent W X Y LossFn w xtrain ytrain xval yval
        learning_rate num_epochs = Returns (w, [], []))
  /\ (forall w' loss_f valloss_f,
        gradient_descent W X Y LossFn w xtrain ytrain xval yval
          learning_rate num_epochs = Returns (w', loss_f, valloss_f) ->
        w' = w
        /\ (0 <= num_epochs)%Z
        /\ Z.of_nat (List.length loss_f) = num_epochs
        /\ Z.of_nat (List.length valloss_f) = num_epochs).
Proof.
  unfold gradient_descent, np_zeros. repeat split.
  - intros Hn. destruct (Z.ltb_spec num_epochs 0); [reflexivity | lia].
  - intros ->. reflexivity.
  - revert H. destruct (Z.ltb_spec num_epochs 0); [discriminate |].
    cbn [obind]. destruct (epochs _ _ _ _ _ _ _ _ _ _ _ _); [| discriminate].
    simpl. congruence.
  - revert H. destruct (Z.ltb_spec num_epochs 0); [discriminate | lia].
  - revert H. destruct (Z.ltb_spec num_epochs 0); [discriminate |].
    cbn [obind].
    destruct (epochs _ _ _ _ _ _ _ _ _ _ _ _) as [[l vl] |] eqn:He;
      [| discriminate].
    simpl. intros Hr. injection Hr as _ <- _.
    apply epochs_lengths in He. destruct He as [Hl _].
    rewrite Hl, repeat_length. lia.
  - revert H. destruct (Z.ltb_spec num_epochs 0); [discriminate |].
    cbn [obind].
    destruct (epochs _ _ _ _ _ _ _ _ _ _ _ _) as [[l vl] |] eqn:He;
      [| discriminate].
    simpl. intros Hr. injection Hr as _ _ <-.
    apply epochs_lengths in He. destruct He as [_ Hvl].
    rewrite Hvl, repeat_length. lia.
Qed.

Lemma gradient_descent_epoch_count_witness :
  gradient_descent unit (list nat) (list nat) loss tt
    [1; 2; 3] [4; 5; 6] [7] [8] (1 # 10) (-1) = Raises "ValueError"
  /\ gradient_descent unit (list nat) (list nat) loss tt
       [1; 2; 3] [4; 5; 6] [7] [8] (1 # 10) 0 = Returns (tt, [], [])
  /\ (tt = tt /\ (0 <= 2)%Z
      /\ Z.of_nat (List.length [NaN; NaN]) = 2%Z
      /\ Z.of_nat (List.length [NaN; NaN]) = 2%Z).
Proof.
  split; [| split].
  - apply (proj1 (gradient_descent_epoch_count
                    unit (list nat) (list nat) loss tt
                    [1; 2; 3] [4; 5; 6] [7] [8] (1 # 10) (-1))).
    lia.
  - apply (proj1 (proj2 (gradient_descent_epoch_count
                           unit (list nat) (list nat) loss tt
                           [1; 2; 3] [4; 5; 6] [7] [8] (1 # 10) 0))).
    reflexivity.
  - apply (proj2 (proj2 (gradient_descent_epoch_count
                           unit (list nat) (list nat) loss tt
                           [1; 2; 3] [4; 5; 6] [7] [8] (1 # 10) 2))).
    reflexivity.
Defined.
